(** * WaffleController: button-state mapper, device locator and retry loop

    A shallow embedding of [waffleController/waffleControls.py].

    - Python [float] is IEEE 754 binary64: it is modelled by Rocq's primitive
      [float], whose operations are the same binary64 operations (round to
      nearest, ties to even).  Decimal literals such as [0.1] denote, here as
      in Python, the binary64 value nearest to them.
    - The node object [self] is a record; the dict [self.button_states] has
      the same eight keys during the whole run ([__init__] creates them and
      [handle_events] only writes keys that are values of [button_map]), so it
      is a record of eight booleans read and written by key.
    - Logging, sleeping and publishing are effects; a function that performs
      some returns the list of the effects it performed, in order. *)

From Stdlib Require Import Bool List ZArith Lia Floats.
From Stdlib Require Import Ascii String.
Import ListNotations.

#[local] Set Warnings "-inexact-float".
#[local] Open Scope float_scope.

(** ** Data model *)

(** The keys of [self.button_states]: ['U'], ['D'], ['L'], ['R'], ['1'],
    ['2'], ['3'], ['4']. *)
Inductive button : Type := U | D | L | R | B1 | B2 | B3 | B4.

Record ButtonStates : Type := mkButtons {
  held_U : bool; held_D : bool; held_L : bool; held_R : bool;
  held_1 : bool; held_2 : bool; held_3 : bool; held_4 : bool
}.

(** [bs[b]] *)
Definition get_button (bs : ButtonStates) (b : button) : bool :=
  match b with
  | U => held_U bs | D => held_D bs | L => held_L bs | R => held_R bs
  | B1 => held_1 bs | B2 => held_2 bs | B3 => held_3 bs | B4 => held_4 bs
  end.

(** [bs[b] = v] *)
Definition set_button (bs : ButtonStates) (b : button) (v : bool) : ButtonStates :=
  match bs with
  | mkButtons u d l r b1 b2 b3 b4 =>
      match b with
      | U => mkButtons v d l r b1 b2 b3 b4
      | D => mkButtons u v l r b1 b2 b3 b4
      | L => mkButtons u d v r b1 b2 b3 b4
      | R => mkButtons u d l v b1 b2 b3 b4
      | B1 => mkButtons u d l r v b2 b3 b4
      | B2 => mkButtons u d l r b1 v b3 b4
      | B3 => mkButtons u d l r b1 b2 v b4
      | B4 => mkButtons u d l r b1 b2 b3 v
      end
  end.

(** The attributes of the node that the mapper reads and writes. *)
Record WaffleController : Type := mkNode {
  linear_speed : float;
  angular_speed : float;
  linear_x : float;
  angular_z : float;
  button_states : ButtonStates
}.

Definition with_linear_speed (self : WaffleController) (v : float) :=
  mkNode v (angular_speed self) (linear_x self) (angular_z self) (button_states self).
Definition with_angular_speed (self : WaffleController) (v : float) :=
  mkNode (linear_speed self) v (linear_x self) (angular_z self) (button_states self).
Definition with_linear_x (self : WaffleController) (v : float) :=
  mkNode (linear_speed self) (angular_speed self) v (angular_z self) (button_states self).
Definition with_angular_z (self : WaffleController) (v : float) :=
  mkNode (linear_speed self) (angular_speed self) (linear_x self) v (button_states self).
Definition with_button (self : WaffleController) (b : button) (v : bool) :=
  mkNode (linear_speed self) (angular_speed self) (linear_x self) (angular_z self)
         (set_button (button_states self) b v).

(** [self.button_states[b]] *)
Definition pressed (self : WaffleController) (b : button) : bool :=
  get_button (button_states self) b.

(** The attribute values set by [__init__]. *)
Definition init : WaffleController :=
  mkNode 0.5 1.0 0.0 0.0
         (mkButtons false false false false false false false false).

(** ** Effects *)

(** What a log line says; the text of the f-string is kept as a constructor
    and its interpolated values as arguments. *)
Inductive message : Type :=
| Found_device (name : string)
| Connected_to_controller (name : string)
| Device_capabilities (caps : string)
| No_controller_found
| Controller_error (e : string)
| Linear_speed_increased_to (v : float)
| Linear_speed_decreased_to (v : float)
| Angular_speed_increased_to (v : float)
| Angular_speed_decreased_to (v : float)
| Button_is (b : button) (v : bool).

Inductive effect : Type :=
| log_info (m : message)
| log_warning (m : message)
| log_error (m : message)
| log_debug (m : message)
| sleep (seconds : float)
| publish (linear_x_ angular_z_ : float).

(** ** Python's two-argument [min] and [max]

    [min(a, b)] is [b] when [b < a] and [a] otherwise; [max(a, b)] is [b]
    when [b > a] and [a] otherwise. *)
Definition py_min (a b : float) : float := if b <? a then b else a.
Definition py_max (a b : float) : float := if a <? b then b else a.

(** ** [update_velocities] *)

Definition update_velocities (self : WaffleController)
  : WaffleController * list effect :=
  (* Linear velocity (U/D buttons) *)
  let self :=
    if pressed self U && negb (pressed self D) then
      with_linear_x self (linear_speed self)
    else if pressed self D && negb (pressed self U) then
      with_linear_x self (- linear_speed self)
    else
      with_linear_x self 0.0 in
  (* Angular velocity (L/R buttons) *)
  let self :=
    if pressed self L && negb (pressed self R) then
      with_angular_z self (angular_speed self)
    else if pressed self R && negb (pressed self L) then
      with_angular_z self (- angular_speed self)
    else
      with_angular_z self 0.0 in
  (* Button 1 (top) - increase linear speed *)
  let '(self, out1) :=
    if pressed self B1 then
      let self := with_linear_speed self (py_min 1.0 (linear_speed self + 0.1)) in
      (self, [log_info (Linear_speed_increased_to (linear_speed self))])
    else (self, []) in
  (* Button 3 (bottom) - decrease linear speed *)
  let '(self, out3) :=
    if pressed self B3 then
      let self := with_linear_speed self (py_max 0.1 (linear_speed self - 0.1)) in
      (self, [log_info (Linear_speed_decreased_to (linear_speed self))])
    else (self, []) in
  (* Button 4 (right) - increase angular speed *)
  let '(self, out4) :=
    if pressed self B4 then
      let self := with_angular_speed self (py_min 2.0 (angular_speed self + 0.2)) in
      (self, [log_info (Angular_speed_increased_to (angular_speed self))])
    else (self, []) in
  (* Button 2 (left) - decrease angular speed *)
  let '(self, out2) :=
    if pressed self B2 then
      let self := with_angular_speed self (py_max 0.2 (angular_speed self - 0.2)) in
      (self, [log_info (Angular_speed_decreased_to (angular_speed self))])
    else (self, []) in
  (self, out1 ++ out3 ++ out4 ++ out2).

(** The node after one recomputation pass. *)
Definition recompute (self : WaffleController) : WaffleController :=
  fst (update_velocities self).

(** ** The statements of one pass, one by one

    [update_velocities] is six statements run in a row: two assignments and
    four guarded adjustments.  Another thread can run between any two of
    them, so each is given as a state transformer of its own;
    [update_statements_spec] shows that their composition is
    [update_velocities]. *)

(* lines 60-65 *)
Definition assign_linear_x (self : WaffleController) : WaffleController :=
  if pressed self U && negb (pressed self D) then
    with_linear_x self (linear_speed self)
  else if pressed self D && negb (pressed self U) then
    with_linear_x self (- linear_speed self)
  else
    with_linear_x self 0.0.

(* lines 68-73 *)
Definition assign_angular_z (self : WaffleController) : WaffleController :=
  if pressed self L && negb (pressed self R) then
    with_angular_z self (angular_speed self)
  else if pressed self R && negb (pressed self L) then
    with_angular_z self (- angular_speed self)
  else
    with_angular_z self 0.0.

(* lines 77-78 *)
Definition increase_linear (self : WaffleController) : WaffleController :=
  if pressed self B1
  then with_linear_speed self (py_min 1.0 (linear_speed self + 0.1)) else self.

(* lines 82-83 *)
Definition decrease_linear (self : WaffleController) : WaffleController :=
  if pressed self B3
  then with_linear_speed self (py_max 0.1 (linear_speed self - 0.1)) else self.

(* lines 87-88 *)
Definition increase_angular (self : WaffleController) : WaffleController :=
  if pressed self B4
  then with_angular_speed self (py_min 2.0 (angular_speed self + 0.2)) else self.

(* lines 92-93 *)
Definition decrease_angular (self : WaffleController) : WaffleController :=
  if pressed self B2
  then with_angular_speed self (py_max 0.2 (angular_speed self - 0.2)) else self.

Definition statement : Type := WaffleController -> WaffleController.

Definition update_statements : list statement :=
  [assign_linear_x; assign_angular_z;
   increase_linear; decrease_linear; increase_angular; decrease_angular].

Definition run_statements (ss : list statement) (self : WaffleController)
  : WaffleController :=
  fold_left (fun s (f : statement) => f s) ss self.

(** ** Input events *)

(** An evdev [InputEvent]: [event.type], [event.code], [event.value]. *)
Record InputEvent : Type := mkEvent {
  ev_type : Z;
  ev_code : Z;
  ev_value : Z
}.

(** The constants of [evdev.ecodes] that the source names, with the values the
    Linux header [input-event-codes.h] gives them. *)
Module ecodes.
Definition EV_KEY : Z := 1.
Definition KEY_1 : Z := 2.
Definition KEY_2 : Z := 3.
Definition KEY_3 : Z := 4.
Definition KEY_4 : Z := 5.
Definition KEY_UP : Z := 103.
Definition KEY_LEFT : Z := 105.
Definition KEY_RIGHT : Z := 106.
Definition KEY_DOWN : Z := 108.
End ecodes.

(** The dict literal [button_map], in the order it is written. *)
Definition button_map : list (Z * button) :=
  [ (ecodes.KEY_UP, U); (ecodes.KEY_RIGHT, R); (ecodes.KEY_DOWN, D);
    (ecodes.KEY_LEFT, L); (ecodes.KEY_1, B1); (ecodes.KEY_2, B2);
    (ecodes.KEY_3, B3); (ecodes.KEY_4, B4) ].

(** [button_map.get(code)]; [code in button_map] is [lookup] being [Some]. *)
Fixpoint lookup (code : Z) (m : list (Z * button)) : option button :=
  match m with
  | [] => None
  | (k, b) :: m' => if (code =? k)%Z then Some b else lookup code m'
  end.

(** [bool(event.value)] for an integer. *)
Definition py_bool (v : Z) : bool := negb (v =? 0)%Z.

(** Lines 114-117: the body run for a recognized button. *)
Definition on_button (self : WaffleController) (button_name : button) (v : bool)
  : WaffleController * list effect :=
  let self := with_button self button_name v in
  let '(self, out) := update_velocities self in
  (self, out ++ [log_debug (Button_is button_name (pressed self button_name))]).

(** Lines 100-117: the body of the [async for] loop, for one event. *)
Definition on_event (self : WaffleController) (event : InputEvent)
  : WaffleController * list effect :=
  if (ev_type event =? ecodes.EV_KEY)%Z then
    match lookup (ev_code event) button_map with
    | Some button_name => on_button self button_name (py_bool (ev_value event))
    | None => (self, [])
    end
  else (self, []).

(** The node after one event. *)
Definition after_event (self : WaffleController) (event : InputEvent)
  : WaffleController :=
  fst (on_event self event).

(** The node after a sequence of events. *)
Definition after_events (self : WaffleController) (events : list InputEvent)
  : WaffleController :=
  fold_left after_event events self.

(** The effects of the events of a stream, in order. *)
Fixpoint events_effects (self : WaffleController) (evs : list InputEvent)
  : list effect :=
  match evs with
  | [] => []
  | event :: evs' =>
      snd (on_event self event) ++ events_effects (after_event self event) evs'
  end.

(** The statements the event path runs for a recognized button: the write to
    [button_states] (line 115), then the pass (line 116). *)
Definition event_statements (b : button) (v : bool) : list statement :=
  (fun self => with_button self b v) :: update_statements.

(** ** [timer_callback] *)

(** Lines 137-140: the message is filled from [self.linear_x], then from
    [self.angular_z], then published. *)
Definition timer_callback (self : WaffleController) : list effect :=
  [publish (linear_x self) (angular_z self)].

(** The emitter running beside the event path: it reads [self.linear_x] when
    the event path has run [k1] of its statements [ss] and [self.angular_z]
    when it has run [k1 + k2] of them. *)
Definition timer_callback_during
  (ss : list statement) (k1 k2 : nat) (self : WaffleController) : list effect :=
  [publish (linear_x (run_statements (firstn k1 ss) self))
           (angular_z (run_statements (firstn (k1 + k2) ss) self))].

(** ** Device Locator: [find_controller] *)

(** Device names and paths are ASCII strings. *)

(** [c.lower()] for one character. *)
Definition lower_ascii (c : ascii) : ascii :=
  let n := nat_of_ascii c in
  if ((65 <=? n) && (n <=? 90))%nat then ascii_of_nat (n + 32) else c.

(** [s.lower()] *)
Fixpoint lower (s : string) : string :=
  match s with
  | EmptyString => EmptyString
  | String c s' => String (lower_ascii c) (lower s')
  end.

(** [s.startswith(p)] *)
Fixpoint startswith (p s : string) : bool :=
  match p, s with
  | EmptyString, _ => true
  | String _ _, EmptyString => false
  | String a p', String b s' => Ascii.eqb a b && startswith p' s'
  end.

(** [needle in hay], for strings: [needle] starts at some position of [hay]. *)
Fixpoint py_in (needle hay : string) : bool :=
  startswith needle hay
  || match hay with
     | EmptyString => false
     | String _ hay' => py_in needle hay'
     end.

(** What the locator reads of an [evdev.InputDevice]. *)
Record InputDevice : Type := mkDevice {
  path : string;
  name : string
}.

(** The test of line 53. *)
Definition is_controller (device : InputDevice) : bool :=
  py_in "controller" (lower (name device))
  || py_in "gamepad" (lower (name device)).

(** Lines 50-55, over the list [devices] built on line 49.  [None] is
    Python's [None]. *)
Fixpoint find_controller (devices : list InputDevice)
  : option string * list effect :=
  match devices with
  | [] => (None, [])
  | device :: devices' =>
      let out := log_info (Found_device (name device)) in
      if is_controller device then (Some (path device), [out])
      else let '(r, outs) := find_controller devices' in (r, out :: outs)
  end.

(** ** Supervision loop: [run_controller] *)

(** What a [raise] carries, as far as [except Exception as e] can tell: whether
    the exception is an instance of [Exception] (with [str(e)]) or one of the
    other [BaseException]s ([KeyboardInterrupt], [SystemExit],
    [asyncio.CancelledError], ...). *)
Inductive raised : Type :=
| Exception (str_e : string)
| BaseException (str_e : string).

(** How a call into a library ends. *)
Inductive outcome (A : Type) : Type :=
| returns (a : A)
| raises (e : raised).
Arguments returns {A} a.
Arguments raises {A} e.

(** A computation on the node: it may change [self], performs effects, and
    returns or raises.  What it did to [self] and the effects it performed
    before a [raise] stay done. *)
Definition M (A : Type) : Type :=
  WaffleController -> WaffleController * list effect * outcome A.

Definition ret {A} (a : A) : M A := fun self => (self, [], returns a).

Definition bind {A B} (m : M A) (k : A -> M B) : M B :=
  fun self =>
    match m self with
    | (self', out, returns a) =>
        let '(self'', out', r) := k a self' in (self'', out ++ out', r)
    | (self', out, raises e) => (self', out, raises e)
    end.

Notation "x <- m ;; k" := (bind m (fun x => k))
  (at level 61, m at next level, right associativity).
Notation "m ;;; k" := (bind m (fun _ => k))
  (at level 61, right associativity).

(** Perform one effect. *)
Definition emit (e : effect) : M unit := fun self => (self, [e], returns tt).

(** Call into a library whose outcome is [o]. *)
Definition call {A} (o : outcome A) : M A := fun self => (self, [], o).

(** Run a function of the node that cannot raise. *)
Definition lift (f : WaffleController -> WaffleController * list effect) : M unit :=
  fun self => let '(self', out) := f self in (self', out, returns tt).

(** [try: body  except Exception as e: handler(str(e))] *)
Definition try_except_Exception (body : M unit) (handler : string -> M unit) : M unit :=
  fun self =>
    match body self with
    | (self', out, raises (Exception str_e)) =>
        let '(self'', out', r) := handler str_e self' in (self'', out ++ out', r)
    | other => other
    end.

(** What the world does during one pass of the [while True] loop. *)
Record attempt : Type := mkAttempt {
  (* line 49: the devices enumerated and opened, or the exception raised *)
  enumerated : outcome (list InputDevice);
  (* line 123: [InputDevice(controller_path)], giving [device.name] *)
  opened : outcome string;
  (* line 126: [device.capabilities(verbose=True)] *)
  capabilities : outcome string;
  (* line 99: the events [device.async_read_loop()] yields ... *)
  events : list InputEvent;
  (* ... and how it stops then: exhausted ([returns tt]) or raising *)
  stops : outcome unit
}.

(** Lines 98-117: [asyncio.run(handle_events(device))]. *)
Fixpoint handle_events (evs : list InputEvent) (stop : outcome unit) : M unit :=
  match evs with
  | [] => call stop
  | event :: evs' => lift (fun self => on_event self event) ;;; handle_events evs' stop
  end.

(** [if controller_path:] is taken for a string that is not empty. *)
Definition truthy (controller_path : option string) : bool :=
  match controller_path with
  | Some (String _ _) => true
  | _ => false
  end.

(** Lines 49-55 as a step of the loop body: [self.find_controller()]. *)
Definition locate (devices : list InputDevice) : M (option string) :=
  fun self => let '(r, out) := find_controller devices in (self, out, returns r).

(** Where the [while True] loop is after some passes: still looping, or left
    by an exception that nothing caught. *)
Inductive loop_status : Type :=
| looping
| left_by (e : raised).

Section run_controller.

(** [rclpy.sleep(seconds)]: a call into the ROS client library. *)
Variable rclpy_sleep : float -> outcome unit.

Definition do_sleep (seconds : float) : M unit :=
  call (rclpy_sleep seconds) ;;; emit (sleep seconds).

(** Lines 121-130: the [try] block. *)
Definition try_block (a : attempt) : M unit :=
  devices <- call (enumerated a) ;;
  controller_path <- locate devices ;;
  if truthy controller_path then
    device_name <- call (opened a) ;;
    emit (log_info (Connected_to_controller device_name)) ;;;
    caps <- call (capabilities a) ;;
    emit (log_info (Device_capabilities caps)) ;;;
    handle_events (events a) (stops a)
  else
    emit (log_warning No_controller_found) ;;;
    do_sleep 5.0.

(** Lines 131-133: the [except Exception as e] block. *)
Definition except_block (str_e : string) : M unit :=
  emit (log_error (Controller_error str_e)) ;;;
  do_sleep 1.0.

(** Lines 120-133: one pass of the loop body. *)
Definition loop_body (a : attempt) : M unit :=
  try_except_Exception (try_block a) except_block.

(** Lines 119-133: the loop, run against what the world does in each of its
    passes.  A pass follows the previous one directly; the loop has no
    [break] and no [return]. *)
Fixpoint run_controller (attempts : list attempt) (self : WaffleController)
  : WaffleController * list effect * loop_status :=
  match attempts with
  | [] => (self, [], looping)
  | a :: attempts' =>
      match loop_body a self with
      | (self', out, returns _) =>
          let '(self'', out', status) := run_controller attempts' self' in
          (self'', out ++ out', status)
      | (self', out, raises e) => (self', out, left_by e)
      end
  end.

End run_controller.

(** ** [rclpy.sleep] as the program finds it

    The module [rclpy] provides no function [sleep] (it waits through
    [Rate.sleep] and [Clock.sleep_for]): evaluating [rclpy.sleep] on lines
    130 and 133 raises [AttributeError], an [Exception], and nothing is
    waited for. *)
Definition no_sleep : string := "module 'rclpy' has no attribute 'sleep'".

Definition rclpy_has_no_sleep : float -> outcome unit :=
  fun _ => raises (Exception no_sleep).

(** ** Runs of the mapper *)

(** What can happen to the mapper: an input event arrives, or a recomputation
    pass runs. *)
Inductive step : Type :=
| Event (event : InputEvent)
| Pass.

Definition do_step (self : WaffleController) (s : step) : WaffleController :=
  match s with
  | Event event => after_event self event
  | Pass => recompute self
  end.

(** The node after [steps], from the state [__init__] leaves. *)
Definition run (steps : list step) : WaffleController :=
  fold_left do_step steps init.

(** [n] recomputation passes in a row. *)
Fixpoint passes (n : nat) (self : WaffleController) : WaffleController :=
  match n with
  | O => self
  | S n' => passes n' (recompute self)
  end.

(** The speed bounds of the data model. *)
Definition linear_in_bounds (v : float) : Prop :=
  (0.1 <=? v) = true /\ (v <=? 1.0) = true.
Definition angular_in_bounds (v : float) : Prop :=
  (0.2 <=? v) = true /\ (v <=? 2.0) = true.

(** The values [linear_speed] takes in runs from [init]: the binary64 results
    of adding and subtracting [0.1] between the clamps [0.1] and [1.0]. *)
Definition linear_values : list float :=
  [0.5; 0.6; 0.4; 0.7; 0.30000000000000004; 0.7999999999999999;
   0.20000000000000004; 0.8999999999999999; 0.10000000000000003;
   0.9999999999999999; 0.1; 1.0; 0.9; 0.2; 0.8; 0.7000000000000001;
   0.6000000000000001; 0.5000000000000001; 0.40000000000000013;
   0.30000000000000016; 0.20000000000000015; 0.10000000000000014].

(** The values [angular_speed] takes in runs from [init]. *)
Definition angular_values : list float :=
  [1.0; 1.2; 0.8; 1.4; 0.6000000000000001; 1.5999999999999999;
   0.4000000000000001; 1.7999999999999998; 0.20000000000000007;
   1.9999999999999998; 0.2; 2.0; 1.8; 0.4; 1.6; 1.4000000000000001;
   1.2000000000000002; 1.0000000000000002; 0.8000000000000003;
   0.6000000000000003; 0.4000000000000003; 0.2000000000000003].

(** The invariant of the runs: both speeds are among the listed values. *)
Definition speeds_listed (self : WaffleController) : Prop :=
  In (linear_speed self) linear_values /\ In (angular_speed self) angular_values.

(** The velocity an axis gets from its two buttons and its speed (the truth
    table of the mapper). *)
Definition axis (positive negative : bool) (speed : float) : float :=
  match positive, negative with
  | true, false => speed
  | false, true => - speed
  | _, _ => 0.0
  end.

(** ** The locator, in the words of its contract *)

(** The letters: each capital with its small letter. *)
Definition letters : list (ascii * ascii) :=
  combine (list_ascii_of_string "ABCDEFGHIJKLMNOPQRSTUVWXYZ")
          (list_ascii_of_string "abcdefghijklmnopqrstuvwxyz").

(** Two characters are the same up to case: the same character, or the
    capital and the small form of one letter. *)
Definition same_letter (a b : ascii) : Prop :=
  a = b \/ In (a, b) letters \/ In (b, a) letters.

(** Two strings are the same up to the case of their letters. *)
Inductive same_ignoring_case : string -> string -> Prop :=
| same_empty : same_ignoring_case EmptyString EmptyString
| same_cons (a b : ascii) (s t : string) :
    same_letter a b -> same_ignoring_case s t ->
    same_ignoring_case (String a s) (String b t).

(** [s] contains [t] case-insensitively: some stretch of [s] is [t] up to the
    case of its letters. *)
Definition contains_ignoring_case (t s : string) : Prop :=
  exists before mid after : string,
    s = (before ++ mid ++ after)%string /\ same_ignoring_case mid t.

(** [same_letter], decided; and the 256 characters, for the comparison of
    [lower_ascii] with it. *)
Definition same_letterb (a b : ascii) : bool :=
  Ascii.eqb a b
  || existsb (fun p => Ascii.eqb a (fst p) && Ascii.eqb b (snd p)) letters
  || existsb (fun p => Ascii.eqb b (fst p) && Ascii.eqb a (snd p)) letters.

Definition all_ascii : list ascii := map ascii_of_nat (seq 0 256).

Definition name_matches (device : InputDevice) : Prop :=
  contains_ignoring_case "controller" (name device)
  \/ contains_ignoring_case "gamepad" (name device).

(** The path of the first matching device in enumeration order, or none. *)
Inductive located : list InputDevice -> option string -> Prop :=
| located_first (earlier : list InputDevice) (device : InputDevice)
                (later : list InputDevice) :
    Forall (fun d => ~ name_matches d) earlier ->
    name_matches device ->
    located (earlier ++ device :: later) (Some (path device))
| located_none (devices : list InputDevice) :
    Forall (fun d => ~ name_matches d) devices ->
    located devices None.

(** ** What the supervision loop can catch *)

Definition catchable {A} (o : outcome A) : bool :=
  match o with
  | raises (BaseException _) => false
  | _ => true
  end.

(** No call of the pass raises anything but an [Exception]. *)
Definition only_Exceptions (a : attempt) : Prop :=
  catchable (enumerated a) = true /\ catchable (opened a) = true
  /\ catchable (capabilities a) = true /\ catchable (stops a) = true.

Definition is_sleep (e : effect) : bool :=
  match e with sleep _ => true | _ => false end.
Definition is_log_error (e : effect) : bool :=
  match e with log_error _ => true | _ => false end.

(** ** Further vocabulary for the properties *)

(** [b == b'] on button names. *)
Definition button_eqb (b b' : button) : bool :=
  match b, b' with
  | U, U | D, D | L, L | R, R | B1, B1 | B2, B2 | B3, B3 | B4, B4 => true
  | _, _ => false
  end.

(** The values [linear_x] and [angular_z] take in runs from [init]: zero, a
    listed speed, or the negation of one. *)
Definition linear_x_values : list float :=
  0.0 :: linear_values ++ map PrimFloat.opp linear_values.
Definition angular_z_values : list float :=
  0.0 :: angular_values ++ map PrimFloat.opp angular_values.

Definition velocities_listed (self : WaffleController) : Prop :=
  In (linear_x self) linear_x_values /\ In (angular_z self) angular_z_values.


(** The line [find_controller] logs for a device. *)
Definition found_line (device : InputDevice) : effect :=
  log_info (Found_device (name device)).

(** * Properties *)

(** ** One pass *)

(** Two floats that a boolean test tells apart are different. *)
Lemma float_neq (x y : float) : (x =? y) = false -> (y =? y) = true -> x <> y.
Proof.
  intros Hxy Hyy E. rewrite E in Hxy. rewrite Hxy in Hyy. discriminate.
Qed.

Ltac float_neq := apply float_neq; vm_compute; reflexivity.

Ltac destruct_node self :=
  let ls := fresh "ls" in
  let as_ := fresh "as_" in
  let lx := fresh "lx" in
  let az := fresh "az" in
  let bs := fresh "bs" in
  destruct self as [ls as_ lx az bs];
  destruct bs as [[] [] [] [] [] [] [] []].

(** Decide a statement about one pass by the 256 button states. *)
Ltac by_buttons self := destruct_node self; reflexivity.

(** A pass writes no button. *)
Lemma recompute_buttons (self : WaffleController) :
  button_states (recompute self) = button_states self.
Proof. by_buttons self. Qed.

Lemma recompute_pressed (self : WaffleController) (b : button) :
  pressed (recompute self) b = pressed self b.
Proof. unfold pressed. now rewrite recompute_buttons. Qed.

(** The six statements, run in a row, are the pass. *)
Lemma update_statements_spec (self : WaffleController) :
  run_statements update_statements self = recompute self.
Proof. by_buttons self. Qed.

(** The velocities of a pass, by the truth table, from the speeds at entry. *)
Lemma recompute_linear_x (self : WaffleController) :
  linear_x (recompute self)
  = axis (pressed self U) (pressed self D) (linear_speed self).
Proof. by_buttons self. Qed.

Lemma recompute_angular_z (self : WaffleController) :
  angular_z (recompute self)
  = axis (pressed self L) (pressed self R) (angular_speed self).
Proof. by_buttons self. Qed.

(** The speeds of a pass: the increase, then the decrease, each if its button
    is held. *)
Lemma recompute_linear_speed (self : WaffleController) :
  linear_speed (recompute self)
  = linear_speed (decrease_linear (increase_linear self)).
Proof. by_buttons self. Qed.

Lemma recompute_angular_speed (self : WaffleController) :
  angular_speed (recompute self)
  = angular_speed (decrease_angular (increase_angular self)).
Proof. by_buttons self. Qed.

(** C1: for every button state and all speed values, after a pass [linear_x]
    is [+linear_speed] when Up is held and Down is not, [-linear_speed] when
    Down is held and Up is not, and [0.0] otherwise (both held or neither);
    [angular_z] likewise from Left, Right and [angular_speed].  The speeds
    are the ones the pass starts with. *)
Theorem update_velocities_truth_table (self : WaffleController) :
  let self' := recompute self in
  (pressed self U = true -> pressed self D = false ->
     linear_x self' = linear_speed self)
  /\ (pressed self D = true -> pressed self U = false ->
     linear_x self' = - linear_speed self)
  /\ (pressed self U = pressed self D -> linear_x self' = 0.0)
  /\ (pressed self L = true -> pressed self R = false ->
     angular_z self' = angular_speed self)
  /\ (pressed self R = true -> pressed self L = false ->
     angular_z self' = - angular_speed self)
  /\ (pressed self L = pressed self R -> angular_z self' = 0.0).
Proof.
  cbv zeta. rewrite recompute_linear_x, recompute_angular_z.
  repeat split; intros; unfold axis;
    repeat match goal with H : pressed _ _ = _ |- _ => rewrite H end;
    try reflexivity;
    repeat match goal with |- context [pressed ?s ?b] => destruct (pressed s b) end;
    reflexivity.
Qed.

(** The truth table at an input: Up and Left held, the default speeds. *)
Lemma update_velocities_truth_table_witness :
  let self := with_button (with_button init U true) L true in
  linear_x (recompute self) = 0.5 /\ angular_z (recompute self) = 1.0.
Proof.
  cbv zeta.
  destruct (update_velocities_truth_table
              (with_button (with_button init U true) L true))
    as (Hup & _ & _ & Hleft & _).
  split; [apply Hup | apply Hleft]; reflexivity.
Defined.

(** C10: in every pass [linear_x] and [angular_z] are computed from the
    speeds the pass starts with, before the pass adjusts them; the adjusted
    speeds are the ones the next pass uses for the velocities. *)
Theorem velocities_from_entry_speeds (self : WaffleController) :
  linear_x (recompute self)
  = axis (pressed self U) (pressed self D) (linear_speed self)
  /\ angular_z (recompute self)
     = axis (pressed self L) (pressed self R) (angular_speed self)
  /\ linear_x (recompute (recompute self))
     = axis (pressed self U) (pressed self D) (linear_speed (recompute self))
  /\ angular_z (recompute (recompute self))
     = axis (pressed self L) (pressed self R) (angular_speed (recompute self)).
Proof.
  repeat split.
  - apply recompute_linear_x.
  - apply recompute_angular_z.
  - rewrite recompute_linear_x. now rewrite !recompute_pressed.
  - rewrite recompute_angular_z. now rewrite !recompute_pressed.
Qed.

(** With Up and Btn1 held from the defaults, the first pass raises the speed
    to 0.6 and still emits 0.5; the second pass emits 0.6. *)
Example adjustment_shows_one_pass_later :
  let self := with_button (with_button init U true) B1 true in
  linear_x (recompute self) = 0.5
  /\ linear_speed (recompute self) = 0.6
  /\ linear_x (recompute (recompute self)) = 0.6.
Proof. vm_compute. repeat split. Qed.

(** ** Events *)

Lemma lookup_None (code : Z) (m : list (Z * button)) :
  ~ In code (map fst m) -> lookup code m = None.
Proof.
  induction m as [|[k b] m IH]; cbn; intros Hnot; [reflexivity|].
  destruct (Z.eqb_spec code k) as [->|_].
  - exfalso. apply Hnot. now left.
  - apply IH. intros Hin. apply Hnot. now right.
Qed.

Lemma lookup_Some (code : Z) (m : list (Z * button)) (b : button) :
  lookup code m = Some b -> In code (map fst m).
Proof.
  induction m as [|[k b'] m IH]; cbn; [discriminate|].
  destruct (Z.eqb_spec code k) as [->|_]; [now left|].
  intros H. right. now apply IH.
Qed.

(** The node after a recognized button event. *)
Lemma on_button_node (self : WaffleController) (b : button) (v : bool) :
  fst (on_button self b v) = recompute (with_button self b v).
Proof.
  unfold on_button, recompute.
  now destruct (update_velocities (with_button self b v)).
Qed.

(** X4: an event whose type is not [EV_KEY] changes nothing of the node and
    performs no effect, whatever its code: also when the code is one of the
    eight of [button_map]. *)
Lemma on_event_other_type (self : WaffleController) (event : InputEvent) :
  ev_type event <> ecodes.EV_KEY -> on_event self event = (self, []).
Proof.
  intros H. unfold on_event.
  now destruct (Z.eqb_spec (ev_type event) ecodes.EV_KEY).
Qed.

(** C6: an event whose code is none of the eight codes of [button_map]
    changes nothing of the node (button states, speeds, velocities) and
    performs no effect: no pass runs for it, and nothing is logged. *)
Theorem unrecognized_code_ignored (self : WaffleController) (event : InputEvent) :
  ~ In (ev_code event) (map fst button_map) ->
  on_event self event = (self, []).
Proof.
  intros H. unfold on_event. rewrite (lookup_None _ _ H).
  now destruct (ev_type event =? ecodes.EV_KEY)%Z.
Qed.

(** C6 at an input: a press of KEY_A (code 30), with Up held. *)
Lemma unrecognized_code_ignored_witness :
  let self := with_button init U true in
  on_event self (mkEvent ecodes.EV_KEY 30 1) = (self, []).
Proof.
  cbv zeta. apply unrecognized_code_ignored.
  cbn. intros H. repeat (destruct H as [H|H]; [discriminate H|]). exact H.
Defined.

(** C3 fails as stated: from the initial state, a press of Btn1 delivered
    twice leaves [linear_speed] at 0.7, delivered once at 0.6. *)
Lemma repeated_press_not_idempotent :
  let press_1 := mkEvent ecodes.EV_KEY ecodes.KEY_1 1 in
  linear_speed (after_events init [press_1; press_1]) = 0.7
  /\ linear_speed (after_events init [press_1]) = 0.6
  /\ linear_speed (after_events init [press_1; press_1])
     <> linear_speed (after_events init [press_1]).
Proof.
  cbv zeta. split; [|split]; [vm_compute; reflexivity ..|].
  vm_compute. float_neq.
Qed.

(** Writing a button twice is writing it once. *)
Lemma set_button_twice (bs : ButtonStates) (b : button) (v : bool) :
  set_button (set_button bs b v) b v = set_button bs b v.
Proof. destruct bs, b; reflexivity. Qed.

Lemma with_button_recompute (self : WaffleController) (b : button) (v : bool) :
  with_button (recompute (with_button self b v)) b v
  = recompute (with_button self b v).
Proof.
  pose proof (recompute_buttons (with_button self b v)) as Hb.
  destruct (recompute (with_button self b v)) as [ls as_ lx az bs].
  unfold with_button at 1. cbn in *. subst bs.
  now rewrite set_button_twice.
Qed.

(** With no speed button held, a second pass changes nothing. *)
Lemma recompute_twice (self : WaffleController) :
  pressed self B1 = false -> pressed self B2 = false ->
  pressed self B3 = false -> pressed self B4 = false ->
  recompute (recompute self) = recompute self.
Proof.
  destruct self as [ls as_ lx az [u d l r b1 b2 b3 b4]].
  unfold pressed. cbn. intros -> -> -> ->.
  destruct u, d, l, r; reflexivity.
Qed.

(** C3, amended: when the first delivery of an event leaves none of the
    speed buttons Btn1..Btn4 held, delivering the same event again changes
    nothing of the node. *)
Theorem repeated_event_idempotent (self : WaffleController) (event : InputEvent) :
  let self' := after_event self event in
  pressed self' B1 = false -> pressed self' B2 = false ->
  pressed self' B3 = false -> pressed self' B4 = false ->
  after_event self' event = self'.
Proof.
  cbv zeta. unfold after_event, on_event.
  destruct (ev_type event =? ecodes.EV_KEY)%Z; [|reflexivity].
  destruct (lookup (ev_code event) button_map) as [b|]; [|reflexivity].
  rewrite !on_button_node. rewrite !recompute_pressed.
  intros H1 H2 H3 H4.
  rewrite with_button_recompute. now apply recompute_twice.
Qed.

(** C3 amended, at an input: a press of Up delivered twice from the initial
    state. *)
Lemma repeated_event_idempotent_witness :
  let press_up := mkEvent ecodes.EV_KEY ecodes.KEY_UP 1 in
  after_events init [press_up; press_up] = after_events init [press_up].
Proof.
  cbv zeta. unfold after_events. cbn [fold_left].
  apply (repeated_event_idempotent init (mkEvent ecodes.EV_KEY ecodes.KEY_UP 1));
    reflexivity.
Defined.

(** ** Speed adjustment *)

Lemma passes_pressed (n : nat) (self : WaffleController) (b : button) :
  pressed (passes n self) b = pressed self b.
Proof.
  revert self. induction n as [|n IH]; intros self; cbn; [reflexivity|].
  now rewrite IH, recompute_pressed.
Qed.

(** The speed of a pass with only the increase button of the axis held, only
    the decrease button, or both. *)
Lemma linear_speed_increase (self : WaffleController) :
  pressed self B1 = true -> pressed self B3 = false ->
  linear_speed (recompute self) = py_min 1.0 (linear_speed self + 0.1).
Proof.
  rewrite recompute_linear_speed. unfold decrease_linear, increase_linear, pressed.
  destruct self as [ls as_ lx az [u d l r b1 b2 b3 b4]]. cbn.
  intros -> ->. reflexivity.
Qed.

Lemma linear_speed_decrease (self : WaffleController) :
  pressed self B3 = true -> pressed self B1 = false ->
  linear_speed (recompute self) = py_max 0.1 (linear_speed self - 0.1).
Proof.
  rewrite recompute_linear_speed. unfold decrease_linear, increase_linear, pressed.
  destruct self as [ls as_ lx az [u d l r b1 b2 b3 b4]]. cbn.
  intros -> ->. reflexivity.
Qed.

Lemma linear_speed_both (self : WaffleController) :
  pressed self B1 = true -> pressed self B3 = true ->
  linear_speed (recompute self)
  = py_max 0.1 (py_min 1.0 (linear_speed self + 0.1) - 0.1).
Proof.
  rewrite recompute_linear_speed. unfold decrease_linear, increase_linear, pressed.
  destruct self as [ls as_ lx az [u d l r b1 b2 b3 b4]]. cbn.
  intros -> ->. reflexivity.
Qed.

Lemma angular_speed_increase (self : WaffleController) :
  pressed self B4 = true -> pressed self B2 = false ->
  angular_speed (recompute self) = py_min 2.0 (angular_speed self + 0.2).
Proof.
  rewrite recompute_angular_speed. unfold decrease_angular, increase_angular, pressed.
  destruct self as [ls as_ lx az [u d l r b1 b2 b3 b4]]. cbn.
  intros -> ->. reflexivity.
Qed.

Lemma angular_speed_decrease (self : WaffleController) :
  pressed self B2 = true -> pressed self B4 = false ->
  angular_speed (recompute self) = py_max 0.2 (angular_speed self - 0.2).
Proof.
  rewrite recompute_angular_speed. unfold decrease_angular, increase_angular, pressed.
  destruct self as [ls as_ lx az [u d l r b1 b2 b3 b4]]. cbn.
  intros -> ->. reflexivity.
Qed.

Lemma angular_speed_both (self : WaffleController) :
  pressed self B4 = true -> pressed self B2 = true ->
  angular_speed (recompute self)
  = py_max 0.2 (py_min 2.0 (angular_speed self + 0.2) - 0.2).
Proof.
  rewrite recompute_angular_speed. unfold decrease_angular, increase_angular, pressed.
  destruct self as [ls as_ lx az [u d l r b1 b2 b3 b4]]. cbn.
  intros -> ->. reflexivity.
Qed.

(** [n] passes with Btn1 held and Btn3 released: [n] clamped increases. *)
Lemma passes_linear_increase (n : nat) (self : WaffleController) :
  pressed self B1 = true -> pressed self B3 = false ->
  linear_speed (passes n self)
  = Nat.iter n (fun v => py_min 1.0 (v + 0.1)) (linear_speed self).
Proof.
  revert self. induction n as [|n IH]; intros self H1 H3; [reflexivity|].
  rewrite Nat.iter_succ_r. cbn [passes].
  rewrite IH by now rewrite recompute_pressed.
  now rewrite linear_speed_increase.
Qed.

Lemma increase_stays_at_cap (k : nat) :
  Nat.iter k (fun v => py_min 1.0 (v + 0.1)) 1.0 = 1.0.
Proof.
  induction k as [|k IH]; [reflexivity|].
  cbn [Nat.iter nat_rect]. unfold Nat.iter in IH. rewrite IH.
  vm_compute. reflexivity.
Qed.

(** C4 fails as stated: hold Btn1 until [linear_speed] is at its cap 1.0,
    then hold Btn3 as well; the pass leaves 0.9, so the two adjustments do
    not cancel. *)
Lemma both_held_at_cap_not_cancelled :
  let press_1 := mkEvent ecodes.EV_KEY ecodes.KEY_1 1 in
  let self :=
    with_button
      (after_events init [press_1; press_1; press_1; press_1; press_1; press_1])
      B3 true in
  pressed self B1 = true /\ pressed self B3 = true
  /\ linear_speed self = 1.0
  /\ linear_speed (recompute self) = 0.9
  /\ linear_speed (recompute self) <> linear_speed self.
Proof.
  cbv zeta. repeat split; try (vm_compute; reflexivity).
  vm_compute. float_neq.
Qed.

(** C4, amended: with the increase and the decrease button of an axis both
    held, a pass applies the clamped increase and then the clamped decrease:
    [linear_speed] becomes [max(0.1, min(1.0, linear_speed + 0.1) - 0.1)] and
    [angular_speed] becomes [max(0.2, min(2.0, angular_speed + 0.2) - 0.2)].
    From the defaults 0.5 and 1.0 that is the speed itself; from the caps 1.0
    and 2.0 it is 0.9 and 1.8. *)
Theorem both_held_adjustments (self : WaffleController) :
  (pressed self B1 = true -> pressed self B3 = true ->
     linear_speed (recompute self)
     = py_max 0.1 (py_min 1.0 (linear_speed self + 0.1) - 0.1)
     /\ (linear_speed self = 0.5 -> linear_speed (recompute self) = 0.5)
     /\ (linear_speed self = 1.0 -> linear_speed (recompute self) = 0.9))
  /\ (pressed self B4 = true -> pressed self B2 = true ->
     angular_speed (recompute self)
     = py_max 0.2 (py_min 2.0 (angular_speed self + 0.2) - 0.2)
     /\ (angular_speed self = 1.0 -> angular_speed (recompute self) = 1.0)
     /\ (angular_speed self = 2.0 -> angular_speed (recompute self) = 1.8)).
Proof.
  split; intros Hup Hdown.
  - rewrite (linear_speed_both self Hup Hdown).
    repeat split; intros ->; vm_compute; reflexivity.
  - rewrite (angular_speed_both self Hup Hdown).
    repeat split; intros ->; vm_compute; reflexivity.
Qed.

(** C4 amended, at an input: all four speed buttons held, from the default
    speeds. *)
Lemma both_held_adjustments_witness :
  let self :=
    with_button (with_button (with_button (with_button init B1 true) B3 true)
                   B4 true) B2 true in
  linear_speed (recompute self) = 0.5 /\ angular_speed (recompute self) = 1.0.
Proof.
  cbv zeta.
  destruct (both_held_adjustments
              (with_button (with_button (with_button (with_button init B1 true)
                                           B3 true) B4 true) B2 true))
    as [Hlin Hang].
  split.
  - apply Hlin; reflexivity.
  - apply Hang; reflexivity.
Defined.

(** C5 fails as stated.  With Btn3 held as well as Btn1, a pass from 0.5
    leaves 0.5 and not [min(1.0, 0.5 + 0.1)].  And with only Btn1 held from
    0.5, the third pass leaves 0.7999999999999999 and the fifth
    0.9999999999999999 (binary64 sums), not 0.8 and 1.0. *)
Lemma held_increase_not_as_claimed :
  (let self := with_button (with_button init B1 true) B3 true in
   pressed self B1 = true
   /\ linear_speed (recompute self) <> py_min 1.0 (linear_speed self + 0.1))
  /\ (let self := with_button init B1 true in
      linear_speed (passes 3 self) <> 0.8
      /\ linear_speed (passes 5 self) <> 1.0).
Proof.
  cbv zeta. repeat split; try (vm_compute; float_neq).
Qed.

(** C5, amended: speed adjustment is level-triggered.  In every state with
    Btn1 held and Btn3 released, whatever event caused the pass, the pass
    sets [linear_speed] to [min(1.0, linear_speed + 0.1)]; with Btn3 held
    and Btn1 released, to [max(0.1, linear_speed - 0.1)]; with Btn4 held and
    Btn2 released it sets [angular_speed] to [min(2.0, angular_speed + 0.2)];
    with Btn2 held and Btn4 released, to [max(0.2, angular_speed - 0.2)].
    With Btn1 held and Btn3 released across six passes from 0.5,
    [linear_speed] takes the binary64 values 0.6, 0.7, 0.7999999999999999,
    0.8999999999999999, 0.9999999999999999, 1.0, and is 1.0 after every
    later pass. *)
Theorem held_button_accumulates (self : WaffleController) :
  (pressed self B1 = true -> pressed self B3 = false ->
     linear_speed (recompute self) = py_min 1.0 (linear_speed self + 0.1))
  /\ (pressed self B3 = true -> pressed self B1 = false ->
     linear_speed (recompute self) = py_max 0.1 (linear_speed self - 0.1))
  /\ (pressed self B4 = true -> pressed self B2 = false ->
     angular_speed (recompute self) = py_min 2.0 (angular_speed self + 0.2))
  /\ (pressed self B2 = true -> pressed self B4 = false ->
     angular_speed (recompute self) = py_max 0.2 (angular_speed self - 0.2))
  /\ (pressed self B1 = true -> pressed self B3 = false ->
      linear_speed self = 0.5 ->
      map (fun n => linear_speed (passes n self)) [1; 2; 3; 4; 5; 6]%nat
      = [0.6; 0.7; 0.7999999999999999; 0.8999999999999999;
         0.9999999999999999; 1.0]
      /\ forall n, (6 <= n)%nat -> linear_speed (passes n self) = 1.0).
Proof.
  split; [exact (linear_speed_increase self)|].
  split; [exact (linear_speed_decrease self)|].
  split; [exact (angular_speed_increase self)|].
  split; [exact (angular_speed_decrease self)|].
  intros H1 H3 Hls. split.
  - cbn [map]. rewrite !passes_linear_increase by assumption. rewrite Hls.
    vm_compute. reflexivity.
  - intros n Hn. rewrite passes_linear_increase by assumption. rewrite Hls.
    replace n with ((n - 6) + 6)%nat by lia.
    rewrite Nat.iter_add.
    replace (Nat.iter 6 (fun v => py_min 1.0 (v + 0.1)) 0.5) with 1.0
      by (vm_compute; reflexivity).
    apply increase_stays_at_cap.
Qed.

(** C5 amended, at an input: Btn1 held from the initial state. *)
Lemma held_button_accumulates_witness :
  let self := with_button init B1 true in
  linear_speed (recompute self) = py_min 1.0 (0.5 + 0.1)
  /\ linear_speed (passes 9 self) = 1.0.
Proof.
  cbv zeta.
  destruct (held_button_accumulates (with_button init B1 true))
    as (Hinc & _ & _ & _ & Hrun).
  split.
  - apply Hinc; reflexivity.
  - destruct Hrun as [_ Hcap]; [reflexivity .. |].
    apply Hcap. lia.
Defined.

(** ** Speed bounds *)

Ltac in_values :=
  vm_compute; repeat first [left; reflexivity | right]; fail.

(** The listed values are closed under the clamped increase and decrease. *)
Lemma linear_values_closed (v : float) :
  In v linear_values ->
  In (py_min 1.0 (v + 0.1)) linear_values
  /\ In (py_max 0.1 (v - 0.1)) linear_values.
Proof.
  unfold linear_values. cbn [In]. intros H.
  repeat (destruct H as [<-|H]; [split; in_values|]).
  contradiction.
Qed.

Lemma angular_values_closed (v : float) :
  In v angular_values ->
  In (py_min 2.0 (v + 0.2)) angular_values
  /\ In (py_max 0.2 (v - 0.2)) angular_values.
Proof.
  unfold angular_values. cbn [In]. intros H.
  repeat (destruct H as [<-|H]; [split; in_values|]).
  contradiction.
Qed.

(** The listed values are within the bounds. *)
Lemma linear_values_in_bounds (v : float) :
  In v linear_values -> linear_in_bounds v.
Proof.
  unfold linear_values. cbn [In]. intros H.
  repeat (destruct H as [<-|H]; [split; vm_compute; reflexivity|]).
  contradiction.
Qed.

Lemma angular_values_in_bounds (v : float) :
  In v angular_values -> angular_in_bounds v.
Proof.
  unfold angular_values. cbn [In]. intros H.
  repeat (destruct H as [<-|H]; [split; vm_compute; reflexivity|]).
  contradiction.
Qed.

Lemma speeds_listed_init : speeds_listed init.
Proof. split; in_values. Qed.

Lemma speeds_listed_recompute (self : WaffleController) :
  speeds_listed self -> speeds_listed (recompute self).
Proof.
  intros [Hl Ha]. split.
  - rewrite recompute_linear_speed. unfold decrease_linear, increase_linear.
    destruct (pressed self B1).
    + destruct (pressed _ B3); cbn.
      * apply linear_values_closed. now apply linear_values_closed.
      * now apply linear_values_closed.
    + destruct (pressed self B3); cbn; [|assumption].
      now apply linear_values_closed.
  - rewrite recompute_angular_speed. unfold decrease_angular, increase_angular.
    destruct (pressed self B4).
    + destruct (pressed _ B2); cbn.
      * apply angular_values_closed. now apply angular_values_closed.
      * now apply angular_values_closed.
    + destruct (pressed self B2); cbn; [|assumption].
      now apply angular_values_closed.
Qed.

Lemma speeds_listed_step (self : WaffleController) (s : step) :
  speeds_listed self -> speeds_listed (do_step self s).
Proof.
  intros H. destruct s as [event|]; cbn; [|now apply speeds_listed_recompute].
  unfold after_event, on_event.
  destruct (ev_type event =? ecodes.EV_KEY)%Z; [|exact H].
  destruct (lookup (ev_code event) button_map) as [b|]; [|exact H].
  rewrite on_button_node. apply speeds_listed_recompute. exact H.
Qed.

Lemma speeds_listed_steps (steps : list step) (self : WaffleController) :
  speeds_listed self -> speeds_listed (fold_left do_step steps self).
Proof.
  revert self. induction steps as [|s steps IH]; intros self H; [exact H|].
  cbn. apply IH. now apply speeds_listed_step.
Qed.

(** C2: from the defaults, after every sequence of input events and
    recomputation passes, [linear_speed] is in [0.1, 1.0] and
    [angular_speed] is in [0.2, 2.0]. *)
Theorem speeds_stay_in_bounds (steps : list step) :
  linear_in_bounds (linear_speed (run steps))
  /\ angular_in_bounds (angular_speed (run steps)).
Proof.
  destruct (speeds_listed_steps steps init speeds_listed_init) as [Hl Ha].
  split.
  - now apply linear_values_in_bounds.
  - now apply angular_values_in_bounds.
Qed.

(** ** Device Locator *)

Lemma startswith_spec (p s : string) :
  startswith p s = true <-> exists rest, s = (p ++ rest)%string.
Proof.
  revert s. induction p as [|a p IH]; intros s; cbn.
  - split; [intros _; now exists s | reflexivity].
  - destruct s as [|b s].
    + split; [discriminate | intros [rest H]; discriminate H].
    + rewrite andb_true_iff, IH. split.
      * intros [Hab [rest ->]]. apply Ascii.eqb_eq in Hab. subst b.
        now exists rest.
      * intros [rest H]. injection H as -> ->. split.
        -- apply Ascii.eqb_refl.
        -- now exists rest.
Qed.

(** [needle in hay] holds exactly when [hay] is [needle] between two
    strings. *)
Lemma py_in_spec (needle hay : string) :
  py_in needle hay = true
  <-> exists before after, hay = (before ++ needle ++ after)%string.
Proof.
  induction hay as [|c hay IH]; cbn [py_in]; rewrite orb_true_iff.
  - rewrite startswith_spec. split.
    + intros [[rest H]|H]; [|discriminate]. now exists EmptyString, rest.
    + intros [before [after H]]. left.
      destruct before; [now exists after | discriminate H].
  - rewrite startswith_spec, IH. split.
    + intros [[rest H]|[before [after H]]].
      * now exists EmptyString, rest.
      * exists (String c before), after. cbn. now rewrite H.
    + intros [before [after H]]. destruct before as [|b before].
      * left. now exists after.
      * right. cbn in H. injection H as _ H. now exists before, after.
Qed.

Lemma lower_app (a b : string) :
  lower (a ++ b) = (lower a ++ lower b)%string.
Proof. induction a as [|c a IH]; cbn; [reflexivity | now rewrite IH]. Qed.

(** A split of [lower s] comes from a split of [s]. *)
Lemma lower_split (s a b : string) :
  lower s = (a ++ b)%string ->
  exists a' b', s = (a' ++ b')%string /\ lower a' = a /\ lower b' = b.
Proof.
  revert s. induction a as [|c a IH]; intros s H.
  - now exists EmptyString, s.
  - destruct s as [|c' s]; [discriminate H|].
    cbn in H. injection H as Hc H.
    destruct (IH s H) as (a' & b' & -> & Ha & Hb).
    exists (String c' a'), b'. cbn. now rewrite Hc, Ha.
Qed.

Lemma in_all_ascii (a : ascii) : In a all_ascii.
Proof.
  unfold all_ascii. rewrite <- (ascii_nat_embedding a).
  apply in_map, in_seq. pose proof (nat_ascii_bounded a). lia.
Qed.

Lemma same_letterb_spec (a b : ascii) :
  same_letterb a b = true <-> same_letter a b.
Proof.
  unfold same_letterb, same_letter.
  rewrite !orb_true_iff, Ascii.eqb_eq, !existsb_exists. split.
  - intros [[H|([x y] & Hin & H)]|([x y] & Hin & H)].
    + now left.
    + apply andb_true_iff in H as [Hx Hy].
      apply Ascii.eqb_eq in Hx, Hy. cbn in Hx, Hy. subst. right. now left.
    + apply andb_true_iff in H as [Hx Hy].
      apply Ascii.eqb_eq in Hx, Hy. cbn in Hx, Hy. subst. right. now right.
  - intros [H|[H|H]].
    + left. now left.
    + left. right. exists (a, b). cbn. now rewrite !Ascii.eqb_refl.
    + right. exists (b, a). cbn. now rewrite !Ascii.eqb_refl.
Qed.

(** [lower_ascii] sends two characters to the same one exactly when they are
    the same letter up to case: checked on the 256 x 256 pairs. *)
Lemma lower_ascii_table :
  forallb (fun a =>
             forallb (fun b =>
                        Bool.eqb (Ascii.eqb (lower_ascii a) (lower_ascii b))
                                 (same_letterb a b))
                     all_ascii)
          all_ascii
  = true.
Proof. vm_compute. reflexivity. Qed.

Lemma lower_ascii_same_letter (a b : ascii) :
  lower_ascii a = lower_ascii b <-> same_letter a b.
Proof.
  rewrite <- same_letterb_spec, <- Ascii.eqb_eq.
  pose proof lower_ascii_table as H.
  rewrite forallb_forall in H. specialize (H a (in_all_ascii a)).
  rewrite forallb_forall in H. specialize (H b (in_all_ascii b)).
  apply Bool.eqb_prop in H. now rewrite H.
Qed.

Lemma same_ignoring_case_lower (s t : string) :
  same_ignoring_case s t <-> lower s = lower t.
Proof.
  split.
  - induction 1 as [|a b s t Hab _ IH]; [reflexivity|].
    cbn. apply lower_ascii_same_letter in Hab. now rewrite Hab, IH.
  - revert t. induction s as [|a s IH]; intros [|b t] H;
      try discriminate H; [constructor|].
    cbn in H. injection H as Hab H. constructor.
    + now apply lower_ascii_same_letter.
    + now apply IH.
Qed.

(** For a lower-case [t], the test [t in s.lower()] is containment up to
    case. *)
Lemma py_in_lower_spec (t s : string) :
  lower t = t ->
  py_in t (lower s) = true <-> contains_ignoring_case t s.
Proof.
  intros Ht. rewrite py_in_spec. unfold contains_ignoring_case. split.
  - intros (before & after & H).
    destruct (lower_split _ _ _ H) as (before' & rest & -> & _ & Hrest).
    destruct (lower_split _ _ _ Hrest) as (mid & after' & -> & Hmid & _).
    exists before', mid, after'. split; [reflexivity|].
    apply same_ignoring_case_lower. now rewrite Ht.
  - intros (before & mid & after & -> & Hmid).
    apply same_ignoring_case_lower in Hmid.
    exists (lower before), (lower after).
    now rewrite !lower_app, Hmid, Ht.
Qed.

Lemma is_controller_spec (device : InputDevice) :
  is_controller device = true <-> name_matches device.
Proof.
  unfold is_controller, name_matches.
  rewrite orb_true_iff, !py_in_lower_spec by reflexivity. reflexivity.
Qed.

Lemma located_skip (device : InputDevice) (devices : list InputDevice)
      (r : option string) :
  ~ name_matches device -> located devices r -> located (device :: devices) r.
Proof.
  intros Hno Hloc. destruct Hloc as [earlier d later Hearlier Hd | devices Hall].
  - change (device :: earlier ++ d :: later)
      with ((device :: earlier) ++ d :: later).
    apply located_first; [now constructor | assumption].
  - apply located_none. now constructor.
Qed.

(** The contract determines the result. *)
Lemma located_unique (devices : list InputDevice) (r1 r2 : option string) :
  located devices r1 -> located devices r2 -> r1 = r2.
Proof.
  intros H1. revert r2.
  destruct H1 as [earlier d later Hearlier Hd | devices Hall]; intros r2 H2.
  - remember (earlier ++ d :: later) as devices eqn:E.
    destruct H2 as [earlier2 d2 later2 Hearlier2 Hd2 | devices Hall2].
    + revert earlier2 Hearlier2 E.
      induction Hearlier as [|x earlier Hx Hearlier IH];
        intros earlier2 Hearlier2 E.
      * destruct Hearlier2 as [|y earlier2 Hy _]; cbn in E.
        -- now injection E as <- _.
        -- injection E as -> _. contradiction.
      * destruct Hearlier2 as [|y earlier2 Hy Hearlier2]; cbn in E.
        -- injection E as <- _. contradiction.
        -- injection E as _ E. now apply (IH earlier2).
    + subst devices. apply Forall_app in Hall2 as [_ Hall2].
      inversion Hall2; contradiction.
  - destruct H2 as [earlier2 d2 later2 Hearlier2 Hd2 | devices _];
      [|reflexivity].
    apply Forall_app in Hall as [_ Hall]. inversion Hall; contradiction.
Qed.

(** C8: for every list of enumerated devices, [find_controller] returns the
    path of the first device, in enumeration order, whose name contains
    "controller" or "gamepad" up to case, and [None] when no name does. *)
Theorem find_controller_located (devices : list InputDevice) :
  located devices (fst (find_controller devices)).
Proof.
  induction devices as [|device devices IH]; cbn.
  - apply located_none. constructor.
  - destruct (is_controller device) eqn:E.
    + cbn. apply (located_first [] device devices); [constructor|].
      now apply is_controller_spec.
    + destruct (find_controller devices) as [r outs]. cbn in *.
      apply located_skip; [|exact IH].
      intros H. apply is_controller_spec in H. congruence.
Qed.

(** The locator on three devices: the second is the first that matches. *)
Example find_controller_example :
  fst (find_controller
         [ mkDevice "/dev/input/event0" "Power Button";
           mkDevice "/dev/input/event5" "8BitDo GamePad";
           mkDevice "/dev/input/event7" "Wireless Controller" ])
  = Some "/dev/input/event5"%string.
Proof. reflexivity. Qed.

(** ** Supervision loop *)

Lemma handle_events_spec (evs : list InputEvent) (stop : outcome unit)
      (self : WaffleController) :
  handle_events evs stop self
  = (after_events self evs, events_effects self evs, stop).
Proof.
  revert self. induction evs as [|event evs IH]; intros self; [reflexivity|].
  cbn [handle_events]. unfold bind, lift. unfold after_events in *.
  cbn [fold_left events_effects]. unfold after_event at 2 3.
  destruct (on_event self event) as [self' out]. cbn [fst snd].
  now rewrite IH.
Qed.

Section supervision.

Variable rclpy_sleep : float -> outcome unit.
Hypothesis sleep_returns : forall seconds, rclpy_sleep seconds = returns tt.

Lemma try_block_catchable (a : attempt) (self : WaffleController) :
  only_Exceptions a -> catchable (snd (try_block rclpy_sleep a self)) = true.
Proof.
  intros (He & Ho & Hc & Hs).
  unfold try_block, bind, call, locate, emit, do_sleep.
  destruct (enumerated a) as [devices|e]; [|exact He].
  destruct (find_controller devices) as [r out].
  destruct (truthy r).
  - destruct (opened a) as [device_name|e]; [|exact Ho].
    destruct (capabilities a) as [caps|e]; [|exact Hc].
    rewrite handle_events_spec. exact Hs.
  - rewrite sleep_returns. reflexivity.
Qed.

(** With no device found: the warning, five seconds of sleep, and the
    pass is over. *)
Lemma loop_body_no_device (a : attempt) (self : WaffleController)
      (devices : list InputDevice) :
  enumerated a = returns devices ->
  truthy (fst (find_controller devices)) = false ->
  loop_body rclpy_sleep a self
  = (self,
     snd (find_controller devices)
       ++ [log_warning No_controller_found; sleep 5.0],
     returns tt).
Proof.
  intros He Hno.
  unfold loop_body, try_except_Exception, try_block, bind, call, locate,
    emit, do_sleep.
  rewrite He. destruct (find_controller devices) as [r out]. cbn in Hno.
  rewrite Hno, sleep_returns. reflexivity.
Qed.

(** With an [Exception] out of the [try] block: the error is logged, one
    second of sleep, and the pass is over. *)
Lemma loop_body_fault (a : attempt) (self self' : WaffleController)
      (out : list effect) (str_e : string) :
  try_block rclpy_sleep a self = (self', out, raises (Exception str_e)) ->
  loop_body rclpy_sleep a self
  = (self', out ++ [log_error (Controller_error str_e); sleep 1.0],
     returns tt).
Proof.
  intros H. unfold loop_body, try_except_Exception. rewrite H.
  unfold except_block, bind, emit, do_sleep, call. now rewrite sleep_returns.
Qed.

(** What the [try] block does once a device is found and opened. *)
Lemma try_block_connected (a : attempt) (self : WaffleController)
      (devices : list InputDevice) (device_name caps : string) :
  enumerated a = returns devices ->
  truthy (fst (find_controller devices)) = true ->
  opened a = returns device_name ->
  capabilities a = returns caps ->
  try_block rclpy_sleep a self
  = (after_events self (events a),
     snd (find_controller devices)
       ++ [log_info (Connected_to_controller device_name);
           log_info (Device_capabilities caps)]
       ++ events_effects self (events a),
     stops a).
Proof.
  intros He Hyes Ho Hc.
  unfold try_block, bind, call, locate, emit.
  rewrite He. destruct (find_controller devices) as [r out]. cbn in Hyes.
  rewrite Hyes, Ho, Hc, handle_events_spec. cbn.
  now rewrite ?app_nil_r.
Qed.

Lemma loop_body_returns (a : attempt) (self : WaffleController) :
  only_Exceptions a ->
  exists self' out, loop_body rclpy_sleep a self = (self', out, returns tt).
Proof.
  intros Ha. pose proof (try_block_catchable a self Ha) as Hc.
  destruct (try_block rclpy_sleep a self) as [[self' out] [[]|[str_e|str_e]]] eqn:E;
    cbn in Hc; [| |discriminate Hc].
  - exists self', out. unfold loop_body, try_except_Exception. now rewrite E.
  - eexists _, _. exact (loop_body_fault _ _ _ _ _ E).
Qed.

Lemma run_controller_looping (attempts : list attempt) (self : WaffleController) :
  Forall only_Exceptions attempts ->
  snd (run_controller rclpy_sleep attempts self) = looping.
Proof.
  intros Hall. revert self.
  induction Hall as [|a attempts Ha _ IH]; intros self; [reflexivity|].
  cbn [run_controller].
  destruct (loop_body_returns a self Ha) as (self' & out & ->).
  specialize (IH self').
  destruct (run_controller rclpy_sleep attempts self') as [[self'' out'] status].
  exact IH.
Qed.

End supervision.

(** A controller is found and opened, and its event stream ends without
    raising: the pass logs the three info lines and is over, and the next
    pass follows at once; [rclpy.sleep] is not reached. *)
Lemma stream_end_no_backoff :
  let a :=
    mkAttempt (returns [mkDevice "/dev/input/event5" "Wireless Controller"])
              (returns "Wireless Controller"%string) (returns "{}"%string)
              [] (returns tt) in
  exists out,
    loop_body (fun _ => returns tt) a init = (init, out, returns tt)
    /\ out = [log_info (Found_device "Wireless Controller");
              log_info (Connected_to_controller "Wireless Controller");
              log_info (Device_capabilities "{}")]
    /\ existsb is_log_error out = false
    /\ existsb is_sleep out = false.
Proof.
  cbv zeta. eexists. split; [vm_compute; reflexivity|].
  repeat split.
Qed.

(** What the loop is written to do, shown for a sleep that returns (the
    program's does not, see [rclpy_has_no_sleep]): the loop is still
    looping after any number of passes whose calls raise nothing but
    [Exception]s; a pass that finds no device logs the warning and sleeps 5;
    a pass whose [try] block raises an [Exception] logs the error and
    sleeps 1; a pass whose stream ends without raising neither logs a fault
    nor sleeps. *)
Theorem supervision_loop_retries (rclpy_sleep : float -> outcome unit) :
  (forall seconds, rclpy_sleep seconds = returns tt) ->
  (forall attempts self,
      Forall only_Exceptions attempts ->
      snd (run_controller rclpy_sleep attempts self) = looping)
  /\ (forall a self devices,
      enumerated a = returns devices ->
      truthy (fst (find_controller devices)) = false ->
      loop_body rclpy_sleep a self
      = (self,
         snd (find_controller devices)
           ++ [log_warning No_controller_found; sleep 5.0],
         returns tt))
  /\ (forall a self self' out str_e,
      try_block rclpy_sleep a self = (self', out, raises (Exception str_e)) ->
      loop_body rclpy_sleep a self
      = (self', out ++ [log_error (Controller_error str_e); sleep 1.0],
         returns tt))
  /\ (forall a self devices device_name caps,
      enumerated a = returns devices ->
      truthy (fst (find_controller devices)) = true ->
      opened a = returns device_name ->
      capabilities a = returns caps ->
      let out :=
        snd (find_controller devices)
          ++ [log_info (Connected_to_controller device_name);
              log_info (Device_capabilities caps)]
          ++ events_effects self (events a) in
      (forall str_e,
          stops a = raises (Exception str_e) ->
          loop_body rclpy_sleep a self
          = (after_events self (events a),
             out ++ [log_error (Controller_error str_e); sleep 1.0],
             returns tt))
      /\ (stops a = returns tt ->
          loop_body rclpy_sleep a self
          = (after_events self (events a), out, returns tt))).
Proof.
  intros Hsleep. split; [|split; [|split]].
  - intros attempts self. now apply run_controller_looping.
  - intros a self devices. now apply loop_body_no_device.
  - intros a self self' out str_e. now apply loop_body_fault.
  - intros a self devices device_name caps He Hyes Ho Hc out.
    pose proof (try_block_connected rclpy_sleep a self devices device_name caps
                  He Hyes Ho Hc) as Htry.
    fold out in Htry. split.
    + intros str_e Hstop. rewrite Hstop in Htry.
      now apply loop_body_fault.
    + intros Hstop. rewrite Hstop in Htry.
      unfold loop_body, try_except_Exception. now rewrite Htry.
Qed.

(** The same at an input: a pass that finds no controller, then a pass
    whose device stream raises after a press of Up. *)
Lemma supervision_loop_retries_witness :
  let pad := mkDevice "/dev/input/event5" "Wireless Controller" in
  let nothing :=
    mkAttempt (returns [mkDevice "/dev/input/event0" "Power Button"])
              (returns ""%string) (returns ""%string) [] (returns tt) in
  let unplugged :=
    mkAttempt (returns [pad]) (returns "Wireless Controller"%string)
              (returns "{}"%string)
              [mkEvent ecodes.EV_KEY ecodes.KEY_UP 1]
              (raises (Exception "No such device")) in
  snd (run_controller (fun _ => returns tt) [nothing; unplugged] init) = looping.
Proof.
  cbv zeta.
  apply (supervision_loop_retries (fun _ => returns tt)).
  - reflexivity.
  - repeat constructor.
Defined.

(** An exception that is not an [Exception] leaves the loop. *)
Lemma base_exception_leaves_loop :
  let a :=
    mkAttempt (returns [mkDevice "/dev/input/event5" "Wireless Controller"])
              (returns "Wireless Controller"%string) (returns "{}"%string)
              [] (raises (BaseException "CancelledError")) in
  snd (run_controller (fun _ => returns tt) [a; a] init)
  = left_by (BaseException "CancelledError").
Proof. vm_compute. reflexivity. Qed.

(** When [rclpy.sleep] raises, the handler's own sleep raises outside any
    [try], and the exception leaves the loop on the first pass that finds no
    controller. *)
Lemma sleep_fault_leaves_loop (e : raised) (a : attempt) (self : WaffleController)
      (devices : list InputDevice) (attempts : list attempt) :
  enumerated a = returns devices ->
  truthy (fst (find_controller devices)) = false ->
  snd (run_controller (fun _ => raises e) (a :: attempts) self) = left_by e.
Proof.
  intros He Hno. cbn [run_controller].
  unfold loop_body, try_except_Exception, try_block, except_block, bind, call,
    locate, emit, do_sleep.
  rewrite He. destruct (find_controller devices) as [r out]. cbn in Hno.
  rewrite Hno. destruct e; reflexivity.
Qed.

(** C7: the loop does not run forever and lets a fault out.  [rclpy.sleep]
    does not exist, so the first pass that has to back off ends the loop: a
    pass that finds no controller logs the warning, the sleep of line 130
    raises, the handler logs that error, and the handler's own sleep of line
    133 raises outside any [try]; a pass whose [try] block raises an
    [Exception] logs it and leaves the loop the same way.  Nothing is waited
    for, the locator is not retried, and the passes after it never run. *)
Theorem backoff_leaves_loop
        (a : attempt) (attempts : list attempt) (self : WaffleController) :
  (forall devices,
      enumerated a = returns devices ->
      truthy (fst (find_controller devices)) = false ->
      run_controller rclpy_has_no_sleep (a :: attempts) self
      = (self,
         snd (find_controller devices)
           ++ [log_warning No_controller_found;
               log_error (Controller_error no_sleep)],
         left_by (Exception no_sleep)))
  /\ (forall self' out str_e,
      try_block rclpy_has_no_sleep a self
      = (self', out, raises (Exception str_e)) ->
      run_controller rclpy_has_no_sleep (a :: attempts) self
      = (self', out ++ [log_error (Controller_error str_e)],
         left_by (Exception no_sleep))).
Proof.
  split.
  - intros devices He Hno. cbn [run_controller].
    unfold loop_body, try_except_Exception, try_block, except_block, bind,
      call, locate, emit, do_sleep, rclpy_has_no_sleep.
    rewrite He. destruct (find_controller devices) as [r out]. cbn in Hno.
    rewrite Hno. cbn. now rewrite <- app_assoc.
  - intros self' out str_e Htry. cbn [run_controller].
    unfold loop_body, try_except_Exception. rewrite Htry.
    unfold except_block, bind, call, emit, do_sleep, rclpy_has_no_sleep.
    reflexivity.
Qed.

(** C7 at an input: the only device enumerated is the power button; the
    second pass never runs. *)
Lemma backoff_leaves_loop_witness :
  let nothing :=
    mkAttempt (returns [mkDevice "/dev/input/event0" "Power Button"])
              (returns ""%string) (returns ""%string) [] (returns tt) in
  run_controller rclpy_has_no_sleep [nothing; nothing] init
  = (init,
     [log_info (Found_device "Power Button");
      log_warning No_controller_found;
      log_error (Controller_error no_sleep)],
     left_by (Exception no_sleep)).
Proof.
  cbv zeta.
  destruct (backoff_leaves_loop
              (mkAttempt (returns [mkDevice "/dev/input/event0" "Power Button"])
                         (returns ""%string) (returns ""%string) [] (returns tt))
              [mkAttempt (returns [mkDevice "/dev/input/event0" "Power Button"])
                         (returns ""%string) (returns ""%string) [] (returns tt)]
              init)
    as [Hnone _].
  apply (Hnone [mkDevice "/dev/input/event0" "Power Button"]); reflexivity.
Defined.

(** ** The emitter beside the event path

    The source takes no lock: [__init__] starts [run_controller] on a thread
    of its own, the timer calls [timer_callback] from the spinning thread,
    and both use the attributes of [self] directly.  Between two statements
    of the event path the emitter can run. *)

(** The statements of the event path for a button, all run: the node after
    the event. *)
Lemma event_statements_spec (self : WaffleController) (b : button) (v : bool) :
  run_statements (event_statements b v) self = fst (on_button self b v).
Proof.
  rewrite on_button_node. unfold event_statements.
  change (run_statements ((fun s => with_button s b v) :: update_statements) self)
    with (run_statements update_statements (with_button self b v)).
  apply update_statements_spec.
Qed.

(** After its first statement, the event path is in the pass. *)
Lemma run_event_statements (k : nat) (self : WaffleController)
      (b : button) (v : bool) :
  run_statements (firstn (S k) (event_statements b v)) self
  = run_statements (firstn k update_statements) (with_button self b v).
Proof. reflexivity. Qed.

(** [linear_x] is written by the first statement of the pass only, and
    [angular_z] by the second only. *)
Lemma linear_x_during (k : nat) (self : WaffleController) :
  linear_x (run_statements (firstn k update_statements) self)
  = match k with O => linear_x self | _ => linear_x (recompute self) end.
Proof.
  destruct k as [|[|[|[|[|[|[|k]]]]]]]; [reflexivity | by_buttons self ..].
Qed.

Lemma angular_z_during (k : nat) (self : WaffleController) :
  angular_z (run_statements (firstn k update_statements) self)
  = match k with
    | O | 1%nat => angular_z self
    | _ => angular_z (recompute self)
    end.
Proof.
  destruct k as [|[|[|[|[|[|[|k]]]]]]]; [reflexivity | by_buttons self ..].
Qed.

Lemma publish_inj (x z x' z' : float) :
  [publish x z] = [publish x' z'] -> x = x' /\ z = z'.
Proof. intros H. inversion H. now split. Qed.

(** C9 fails as stated: Left and Btn4 are held, so [angular_speed] is 1.2
    while the emitted [angular_z] is still 1.0; now Up is pressed.  Before
    the event the emitter publishes (0.0, 1.0), after it (0.5, 1.2); running
    after the assignment of [linear_x] and before the one of [angular_z] it
    publishes (0.5, 1.0): the new [linear_x] with the stale [angular_z]. *)
Lemma emitter_sees_partial_update :
  let press_left := mkEvent ecodes.EV_KEY ecodes.KEY_LEFT 1 in
  let press_4 := mkEvent ecodes.EV_KEY ecodes.KEY_4 1 in
  let self := after_events init [press_left; press_4] in
  let during := timer_callback_during (event_statements U true) 2 0 self in
  timer_callback self = [publish 0.0 1.0]
  /\ timer_callback (fst (on_button self U true)) = [publish 0.5 1.2]
  /\ during = [publish 0.5 1.0]
  /\ during <> timer_callback self
  /\ during <> timer_callback (fst (on_button self U true)).
Proof.
  cbv zeta. repeat split; try (vm_compute; reflexivity).
  - vm_compute. intros H. apply publish_inj in H as [H _]. revert H. float_neq.
  - vm_compute. intros H. apply publish_inj in H as [_ H]. revert H. float_neq.
Qed.

(** C9, amended: the event path is a sequence of separate writes with no
    mutual exclusion, and the emitter may read between any two of them.  The
    [linear_x] it publishes is the value from before the event when it reads
    before the event path has run two statements (the button write and the
    assignment of [linear_x]), and the value from after the event otherwise;
    the [angular_z] it publishes is the value from before the event when it
    reads before the event path has run three statements (the assignment of
    [angular_z] being the third), and the value from after the event
    otherwise.  So the pair can be mixed: read between the two assignments,
    it is the new [linear_x] with the stale [angular_z]. *)
Theorem emitter_reads_old_or_new
        (self : WaffleController) (b : button) (v : bool) (k1 k2 : nat) :
  let after := fst (on_button self b v) in
  timer_callback_during (event_statements b v) k1 k2 self
  = [publish (if (k1 <? 2)%nat then linear_x self else linear_x after)
             (if (k1 + k2 <? 3)%nat then angular_z self else angular_z after)].
Proof.
  cbv zeta. rewrite on_button_node.
  unfold timer_callback_during. f_equal. f_equal.
  - destruct k1 as [|k1]; [reflexivity|].
    rewrite run_event_statements, linear_x_during.
    destruct k1 as [|k1]; reflexivity.
  - destruct (k1 + k2)%nat as [|k]; [reflexivity|].
    rewrite run_event_statements, angular_z_during.
    destruct k as [|[|k]]; reflexivity.
Qed.


(** * Further properties of the code *)

(** ** What an event writes *)

(** X4 at an input: an [EV_ABS] event (type 3) that carries the code of
    KEY_UP. *)
Lemma on_event_other_type_witness :
  on_event init (mkEvent 3 ecodes.KEY_UP 1) = (init, []).
Proof. apply on_event_other_type. discriminate. Defined.

Lemma with_button_frame (self : WaffleController) (b b' : button) (v : bool) :
  pressed (with_button self b v) b' = if button_eqb b' b then v else pressed self b'.
Proof.
  destruct self as [ls as_ lx az [u d l r b1 b2 b3 b4]].
  destruct b, b'; reflexivity.
Qed.

(** X2: a recognized key event writes exactly one entry of
    [button_states]: the button its code maps to becomes [bool(event.value)],
    and the other seven buttons keep their state. *)
Theorem recognized_event_writes_one_button
        (self : WaffleController) (event : InputEvent) (b : button) :
  ev_type event = ecodes.EV_KEY ->
  lookup (ev_code event) button_map = Some b ->
  pressed (after_event self event) b = py_bool (ev_value event)
  /\ forall b', b' <> b ->
       pressed (after_event self event) b' = pressed self b'.
Proof.
  intros Ht Hb. unfold after_event, on_event.
  rewrite Ht, Z.eqb_refl, Hb, on_button_node. split.
  - rewrite recompute_pressed, with_button_frame.
    now destruct b.
  - intros b' Hne. rewrite recompute_pressed, with_button_frame.
    destruct b, b'; try reflexivity; now contradiction Hne.
Qed.

(** X2 at an input: a release of Down while Up and Down are held. *)
Lemma recognized_event_writes_one_button_witness :
  let self := with_button (with_button init U true) D true in
  let after := after_event self (mkEvent ecodes.EV_KEY ecodes.KEY_DOWN 0) in
  pressed after D = false /\ pressed after U = true.
Proof.
  cbv zeta.
  destruct (recognized_event_writes_one_button
              (with_button (with_button init U true) D true)
              (mkEvent ecodes.EV_KEY ecodes.KEY_DOWN 0) D)
    as [Hd Hothers]; [reflexivity .. |].
  split; [exact Hd|]. apply Hothers. discriminate.
Defined.

(** X5: any non-zero [event.value] is a press: a key event with the
    auto-repeat value 2 (or any other non-zero value) does exactly what the
    same event with value 1 does, effects included. *)
Theorem nonzero_value_is_press (self : WaffleController) (event : InputEvent) :
  ev_value event <> 0%Z ->
  on_event self event
  = on_event self (mkEvent (ev_type event) (ev_code event) 1).
Proof.
  intros Hv. unfold on_event. cbn [ev_type ev_code ev_value].
  replace (py_bool (ev_value event)) with (py_bool 1); [reflexivity|].
  unfold py_bool. now destruct (Z.eqb_spec (ev_value event) 0).
Qed.

(** X5 at an input: an auto-repeat of Btn1 raises the speed like a press. *)
Lemma nonzero_value_is_press_witness :
  linear_speed (after_event init (mkEvent ecodes.EV_KEY ecodes.KEY_1 2)) = 0.6.
Proof.
  unfold after_event.
  rewrite (nonzero_value_is_press init (mkEvent ecodes.EV_KEY ecodes.KEY_1 2))
    by discriminate.
  reflexivity.
Defined.

(** X10: [button_map] pairs the buttons with the key codes one to one:
    every button has a code that maps to it, and only one. *)
Theorem button_map_one_code_per_button (b : button) :
  exists code,
    lookup code button_map = Some b
    /\ forall code', lookup code' button_map = Some b -> code' = code.
Proof.
  destruct b;
    [exists ecodes.KEY_UP | exists ecodes.KEY_DOWN | exists ecodes.KEY_LEFT
    | exists ecodes.KEY_RIGHT | exists ecodes.KEY_1 | exists ecodes.KEY_2
    | exists ecodes.KEY_3 | exists ecodes.KEY_4];
    (split; [reflexivity|]);
    intros code'; unfold button_map; cbn [lookup];
    repeat match goal with
      | |- context [(code' =? ?k)%Z] =>
          destruct (Z.eqb_spec code' k) as [->|_];
          [intros H; first [discriminate H | reflexivity]|]
      end;
    intros H; discriminate H.
Qed.

(** ** Passes without a speed button *)

(** X6: with none of Btn1..Btn4 held, a pass leaves both speeds as they
    are and logs nothing; and a pass that logs nothing had none of them
    held. *)
Theorem pass_without_speed_button (self : WaffleController) :
  (pressed self B1 = false -> pressed self B2 = false ->
   pressed self B3 = false -> pressed self B4 = false ->
   linear_speed (recompute self) = linear_speed self
   /\ angular_speed (recompute self) = angular_speed self
   /\ snd (update_velocities self) = [])
  /\ (snd (update_velocities self) = [] ->
      pressed self B1 = false /\ pressed self B2 = false
      /\ pressed self B3 = false /\ pressed self B4 = false).
Proof.
  destruct self as [ls as_ lx az [u d l r b1 b2 b3 b4]]. unfold pressed. cbn.
  split.
  - intros -> -> -> ->. destruct u, d, l, r; repeat split.
  - destruct b1, b2, b3, b4, u, d, l, r; cbn; intros H;
      try discriminate H; repeat split.
Qed.

(** X6 at an input: a pass with only Up held, from the defaults. *)
Lemma pass_without_speed_button_witness :
  let self := with_button init U true in
  linear_speed (recompute self) = 0.5
  /\ angular_speed (recompute self) = 1.0
  /\ snd (update_velocities self) = [].
Proof.
  cbv zeta.
  destruct (pass_without_speed_button (with_button init U true)) as [H _].
  apply H; reflexivity.
Defined.

(** ** What the locator logs *)

Lemma find_controller_no_match (devices : list InputDevice) :
  Forall (fun d => is_controller d = false) devices ->
  find_controller devices = (None, map found_line devices).
Proof.
  induction 1 as [|device devices Hd _ IH]; [reflexivity|].
  cbn. now rewrite Hd, IH.
Qed.

(** X1: [find_controller] logs one line per device it looks at, in order,
    and it stops looking at the first match: with a match, the lines are
    those of the devices up to and including the matching one, and the
    devices enumerated after it are not logged; with no match, every
    enumerated device is logged and the result is [None]. *)
Theorem find_controller_logs
        (earlier : list InputDevice) (device : InputDevice)
        (later : list InputDevice) :
  Forall (fun d => is_controller d = false) earlier ->
  (is_controller device = true ->
   find_controller (earlier ++ device :: later)
   = (Some (path device), map found_line (earlier ++ [device])))
  /\ (is_controller device = false ->
      Forall (fun d => is_controller d = false) later ->
      find_controller (earlier ++ device :: later)
      = (None, map found_line (earlier ++ device :: later))).
Proof.
  intros Hearlier. split.
  - intros Hd. induction Hearlier as [|d earlier Hno _ IH]; cbn.
    + now rewrite Hd.
    + now rewrite Hno, IH.
  - intros Hd Hlater. apply find_controller_no_match.
    apply Forall_app. split; [assumption|]. now constructor.
Qed.

(** X1 at an input: the third device is not looked at. *)
Lemma find_controller_logs_witness :
  find_controller
    [ mkDevice "/dev/input/event0" "Power Button";
      mkDevice "/dev/input/event5" "8BitDo GamePad";
      mkDevice "/dev/input/event7" "Wireless Controller" ]
  = (Some "/dev/input/event5"%string,
     [log_info (Found_device "Power Button");
      log_info (Found_device "8BitDo GamePad")]).
Proof.
  apply (find_controller_logs
           [mkDevice "/dev/input/event0" "Power Button"]
           (mkDevice "/dev/input/event5" "8BitDo GamePad")
           [mkDevice "/dev/input/event7" "Wireless Controller"]).
  - repeat constructor.
  - reflexivity.
Defined.

(** ** Bounds of the emitted velocity *)

Lemma linear_x_values_of_speed (v : float) :
  In v linear_values ->
  In v linear_x_values /\ In (- v) linear_x_values.
Proof.
  intros H. unfold linear_x_values. split; right; apply in_or_app.
  - now left.
  - right. now apply in_map.
Qed.

Lemma angular_z_values_of_speed (v : float) :
  In v angular_values ->
  In v angular_z_values /\ In (- v) angular_z_values.
Proof.
  intros H. unfold angular_z_values. split; right; apply in_or_app.
  - now left.
  - right. now apply in_map.
Qed.

Lemma velocities_listed_recompute (self : WaffleController) :
  speeds_listed self -> velocities_listed (recompute self).
Proof.
  intros [Hl Ha]. split.
  - rewrite recompute_linear_x.
    destruct (linear_x_values_of_speed _ Hl) as [Hpos Hneg].
    unfold axis. destruct (pressed self U), (pressed self D);
      try assumption; now left.
  - rewrite recompute_angular_z.
    destruct (angular_z_values_of_speed _ Ha) as [Hpos Hneg].
    unfold axis. destruct (pressed self L), (pressed self R);
      try assumption; now left.
Qed.

Lemma velocities_listed_step (self : WaffleController) (s : step) :
  speeds_listed self -> velocities_listed self ->
  velocities_listed (do_step self s).
Proof.
  intros Hs Hv. destruct s as [event|]; cbn;
    [|now apply velocities_listed_recompute].
  unfold after_event, on_event.
  destruct (ev_type event =? ecodes.EV_KEY)%Z; [|exact Hv].
  destruct (lookup (ev_code event) button_map) as [b|]; [|exact Hv].
  rewrite on_button_node. apply velocities_listed_recompute. exact Hs.
Qed.

Lemma velocities_listed_steps (steps : list step) (self : WaffleController) :
  speeds_listed self -> velocities_listed self ->
  velocities_listed (fold_left do_step steps self).
Proof.
  revert self. induction steps as [|s steps IH]; intros self Hs Hv; [exact Hv|].
  cbn. apply IH.
  - now apply speeds_listed_step.
  - now apply velocities_listed_step.
Qed.

Lemma linear_x_values_in_bounds (x : float) :
  In x linear_x_values -> (-1.0 <=? x) = true /\ (x <=? 1.0) = true.
Proof.
  unfold linear_x_values, linear_values. cbn [In map app]. intros H.
  repeat (destruct H as [<-|H]; [split; vm_compute; reflexivity|]).
  contradiction.
Qed.

Lemma angular_z_values_in_bounds (z : float) :
  In z angular_z_values -> (-2.0 <=? z) = true /\ (z <=? 2.0) = true.
Proof.
  unfold angular_z_values, angular_values. cbn [In map app]. intros H.
  repeat (destruct H as [<-|H]; [split; vm_compute; reflexivity|]).
  contradiction.
Qed.

(** X3: from the initial state, after every sequence of input events and
    passes, the message the emitter publishes has [linear.x] in [-1.0, 1.0]
    and [angular.z] in [-2.0, 2.0]: the velocity never exceeds the speed
    caps in either direction. *)
Theorem published_velocity_in_bounds (steps : list step) :
  exists x z,
    timer_callback (run steps) = [publish x z]
    /\ (-1.0 <=? x) = true /\ (x <=? 1.0) = true
    /\ (-2.0 <=? z) = true /\ (z <=? 2.0) = true.
Proof.
  assert (Hv : velocities_listed init) by (split; now left).
  destruct (velocities_listed_steps steps init speeds_listed_init Hv) as [Hx Hz].
  exists (linear_x (run steps)), (angular_z (run steps)).
  split; [reflexivity|].
  destruct (linear_x_values_in_bounds _ Hx), (angular_z_values_in_bounds _ Hz).
  repeat split; assumption.
Qed.

(** ** The node across passes of the supervision loop *)



(** With the program's [rclpy.sleep]: the controller is unplugged with Up
    held; the loop is left in that pass, and the emitter keeps publishing the
    forward velocity. *)
Example unplugged_keeps_velocity :
  let unplugged :=
    mkAttempt (returns [mkDevice "/dev/input/event5" "Wireless Controller"])
              (returns "Wireless Controller"%string) (returns "{}"%string)
              [mkEvent ecodes.EV_KEY ecodes.KEY_UP 1]
              (raises (Exception "No such device")) in
  let result := run_controller rclpy_has_no_sleep [unplugged; unplugged] init in
  snd result = left_by (Exception no_sleep)
  /\ timer_callback (fst (fst result)) = [publish 0.5 0.0].
Proof. vm_compute. split; reflexivity. Qed.

(** ** The clamps hold *)

Ltac clamp_holds lemma :=
  let n := fresh "n" in
  let IH := fresh "IH" in
  intros n; induction n as [|n IH]; intros self Hheld Hfree Hat;
  [exact Hat|];
  cbn [passes]; apply IH;
  [ now rewrite recompute_pressed
  | now rewrite recompute_pressed
  | rewrite (lemma self Hheld Hfree), Hat; vm_compute; reflexivity ].

Lemma linear_cap_holds :
  forall (n : nat) (self : WaffleController),
    pressed self B1 = true -> pressed self B3 = false ->
    linear_speed self = 1.0 -> linear_speed (passes n self) = 1.0.
Proof. clamp_holds linear_speed_increase. Qed.

Lemma linear_floor_holds :
  forall (n : nat) (self : WaffleController),
    pressed self B3 = true -> pressed self B1 = false ->
    linear_speed self = 0.1 -> linear_speed (passes n self) = 0.1.
Proof. clamp_holds linear_speed_decrease. Qed.

Lemma angular_cap_holds :
  forall (n : nat) (self : WaffleController),
    pressed self B4 = true -> pressed self B2 = false ->
    angular_speed self = 2.0 -> angular_speed (passes n self) = 2.0.
Proof. clamp_holds angular_speed_increase. Qed.

Lemma angular_floor_holds :
  forall (n : nat) (self : WaffleController),
    pressed self B2 = true -> pressed self B4 = false ->
    angular_speed self = 0.2 -> angular_speed (passes n self) = 0.2.
Proof. clamp_holds angular_speed_decrease. Qed.

(** X9: a speed that sits on a clamp stays there for as long as the button
    that pushes against the clamp is held alone: [linear_speed] 1.0 under
    Btn1, 0.1 under Btn3, [angular_speed] 2.0 under Btn4, 0.2 under Btn2,
    after any number of passes. *)
Theorem clamps_hold (n : nat) (self : WaffleController) :
  (pressed self B1 = true -> pressed self B3 = false ->
   linear_speed self = 1.0 -> linear_speed (passes n self) = 1.0)
  /\ (pressed self B3 = true -> pressed self B1 = false ->
      linear_speed self = 0.1 -> linear_speed (passes n self) = 0.1)
  /\ (pressed self B4 = true -> pressed self B2 = false ->
      angular_speed self = 2.0 -> angular_speed (passes n self) = 2.0)
  /\ (pressed self B2 = true -> pressed self B4 = false ->
      angular_speed self = 0.2 -> angular_speed (passes n self) = 0.2).
Proof.
  repeat split.
  - apply linear_cap_holds.
  - apply linear_floor_holds.
  - apply angular_cap_holds.
  - apply angular_floor_holds.
Qed.

(** X9 at an input: Btn3 held for five passes reaches the floor 0.1 in
    binary64, and seven more passes leave it there. *)
Lemma clamps_hold_witness :
  let self := passes 5 (with_button init B3 true) in
  linear_speed self = 0.1 /\ linear_speed (passes 7 self) = 0.1.
Proof.
  cbv zeta. split; [vm_compute; reflexivity|].
  destruct (clamps_hold 7 (passes 5 (with_button init B3 true)))
    as (_ & Hfloor & _).
  apply Hfloor; vm_compute; reflexivity.
Defined.

(** ** The debug line of an event *)

(** X11: a recognized key event logs, after the lines of its pass, one debug
    line, and that line carries the button of the event and the state just
    written for it, [bool(event.value)]. *)
Theorem recognized_event_debug_line
        (self : WaffleController) (event : InputEvent) (b : button) :
  ev_type event = ecodes.EV_KEY ->
  lookup (ev_code event) button_map = Some b ->
  snd (on_event self event)
  = snd (update_velocities (with_button self b (py_bool (ev_value event))))
      ++ [log_debug (Button_is b (py_bool (ev_value event)))].
Proof.
  intros Ht Hb. unfold on_event. rewrite Ht, Z.eqb_refl, Hb. unfold on_button.
  pose proof (recompute_pressed
                (with_button self b (py_bool (ev_value event))) b) as Hp.
  unfold recompute in Hp.
  destruct (update_velocities (with_button self b (py_bool (ev_value event))))
    as [self' out].
  cbn in Hp |- *. rewrite Hp, with_button_frame. now destruct b.
Qed.

(** X11 at an input: a press of Btn1 from the initial state. *)
Lemma recognized_event_debug_line_witness :
  snd (on_event init (mkEvent ecodes.EV_KEY ecodes.KEY_1 1))
  = [log_info (Linear_speed_increased_to 0.6); log_debug (Button_is B1 true)].
Proof.
  rewrite (recognized_event_debug_line
             init (mkEvent ecodes.EV_KEY ecodes.KEY_1 1) B1);
    reflexivity.
Defined.
